(** * AquesTalk-python: the ctypes wrapper [aquestalk/aquestalk.py]

    A shallow embedding of the wrapper module and the properties of its
    loader, its synthesis methods and its error type.

    The Python module talks to three things it does not define: the
    closed AquesTalk DLL (two exports), the file system, and a handful
    of standard-library facilities ([hashlib.md5], the [sjis] codec,
    [wave.open], [os.path.join], [ctypes]).  The DLL, the codec, the WAV
    reader and the path join are kept abstract in a [Host] record; the
    digest is abstract in [Host] as well, and [MD5] below gives the real
    RFC 1321 function to instantiate it with. *)

From Stdlib Require Import ZArith List Ascii String Strings.Byte Lia.
From stdpp Require Import gmap strings list fin_maps pretty.
From Equations.Prop Require Import Equations Logic.
Import ListNotations.
Local Open Scope Z_scope.

(* ===================================================================== *)
(** * [hashlib.md5]: the RFC 1321 digest                                  *)
(* ===================================================================== *)

Module MD5.

(** 32-bit words are [Z] with the wrap-around written out. *)
Definition wrap (x : Z) : Z := x mod 2 ^ 32.

Definition not32 (x : Z) : Z := Z.lxor x 0xffffffff.

Definition rotl (x c : Z) : Z :=
  wrap (Z.lor (Z.shiftl x c) (Z.shiftr x (32 - c))).

Definition shifts : list Z :=
  [ 7; 12; 17; 22;  7; 12; 17; 22;  7; 12; 17; 22;  7; 12; 17; 22;
    5;  9; 14; 20;  5;  9; 14; 20;  5;  9; 14; 20;  5;  9; 14; 20;
    4; 11; 16; 23;  4; 11; 16; 23;  4; 11; 16; 23;  4; 11; 16; 23;
    6; 10; 15; 21;  6; 10; 15; 21;  6; 10; 15; 21;  6; 10; 15; 21 ].

(** [floor (2^32 * abs (sin (i + 1)))] for [i = 0 .. 63]. *)
Definition sines : list Z :=
  [ 0xd76aa478; 0xe8c7b756; 0x242070db; 0xc1bdceee;
    0xf57c0faf; 0x4787c62a; 0xa8304613; 0xfd469501;
    0x698098d8; 0x8b44f7af; 0xffff5bb1; 0x895cd7be;
    0x6b901122; 0xfd987193; 0xa679438e; 0x49b40821;
    0xf61e2562; 0xc040b340; 0x265e5a51; 0xe9b6c7aa;
    0xd62f105d; 0x02441453; 0xd8a1e681; 0xe7d3fbc8;
    0x21e1cde6; 0xc33707d6; 0xf4d50d87; 0x455a14ed;
    0xa9e3e905; 0xfcefa3f8; 0x676f02d9; 0x8d2a4c8a;
    0xfffa3942; 0x8771f681; 0x6d9d6122; 0xfde5380c;
    0xa4beea44; 0x4bdecfa9; 0xf6bb4b60; 0xbebfbc70;
    0x289b7ec6; 0xeaa127fa; 0xd4ef3085; 0x04881d05;
    0xd9d4d039; 0xe6db99e5; 0x1fa27cf8; 0xc4ac5665;
    0xf4292244; 0x432aff97; 0xab9423a7; 0xfc93a039;
    0x655b59c3; 0x8f0ccc92; 0xffeff47d; 0x85845dd1;
    0x6fa87e4f; 0xfe2ce6e0; 0xa3014314; 0x4e0811a1;
    0xf7537e82; 0xbd3af235; 0x2ad7d2bb; 0xeb86d391 ].

Record state := St { sA : Z; sB : Z; sC : Z; sD : Z }.

Definition init : state :=
  St 0x67452301 0xefcdab89 0x98badcfe 0x10325476.

(** One of the 64 operations of a block; [M] holds its 16 words. *)
Definition step (M : list Z) (s : state) (i : nat) : state :=
  let '(St a b c d) := s in
  let iz := Z.of_nat i in
  let '(f, g) :=
    if iz <? 16 then (Z.lor (Z.land b c) (Z.land (not32 b) d), iz)
    else if iz <? 32 then
      (Z.lor (Z.land d b) (Z.land (not32 d) c), (5 * iz + 1) mod 16)
    else if iz <? 48 then (Z.lxor b (Z.lxor c d), (3 * iz + 5) mod 16)
    else (Z.lxor c (Z.lor b (not32 d)), (7 * iz) mod 16) in
  let f' := wrap (f + a + nth i sines 0 + nth (Z.to_nat g) M 0) in
  St d (wrap (b + rotl f' (nth i shifts 0))) b c.

Definition block (s : state) (M : list Z) : state :=
  let '(St a b c d) := fold_left (step M) (seq 0 64) s in
  St (wrap (sA s + a)) (wrap (sB s + b)) (wrap (sC s + c)) (wrap (sD s + d)).

(** Little-endian words of a byte string whose length is a multiple of 4. *)
Fixpoint words (bs : list Z) : list Z :=
  match bs with
  | b0 :: b1 :: b2 :: b3 :: rest =>
      (b0 + b1 * 2 ^ 8 + b2 * 2 ^ 16 + b3 * 2 ^ 24) :: words rest
  | _ => []
  end.

Fixpoint blocks (n : nat) (ws : list Z) (s : state) : state :=
  match n with
  | O => s
  | S n' => blocks n' (drop 16 ws) (block s (take 16 ws))
  end.

Definition le_bytes (n : nat) (x : Z) : list Z :=
  map (fun i => Z.shiftr x (8 * Z.of_nat i) mod 256) (seq 0 n).

(** Padding: a 1 bit, zeros up to 56 modulo 64, the bit length on 64 bits. *)
Definition pad (msg : list Z) : list Z :=
  let len := Z.of_nat (length msg) in
  msg ++ [0x80] ++ replicate (Z.to_nat ((55 - len) mod 64)) 0
      ++ le_bytes 8 ((8 * len) mod 2 ^ 64).

Definition digest (msg : list byte) : list Z :=
  let p := pad (map (fun b => Z.of_N (Byte.to_N b)) msg) in
  let '(St a b c d) := blocks (length p / 64)%nat (words p) init in
  le_bytes 4 a ++ le_bytes 4 b ++ le_bytes 4 c ++ le_bytes 4 d.

Definition hex_digit (n : Z) : ascii :=
  nth (Z.to_nat n)
      ["0"; "1"; "2"; "3"; "4"; "5"; "6"; "7";
       "8"; "9"; "a"; "b"; "c"; "d"; "e"; "f"]%char "0"%char.

Fixpoint hex (bs : list Z) : string :=
  match bs with
  | [] => EmptyString
  | b :: rest => String (hex_digit (b / 16)) (String (hex_digit (b mod 16)) (hex rest))
  end.

(** [hashlib.md5(msg).hexdigest()] *)
Definition hexdigest (msg : list byte) : string := hex (digest msg).

End MD5.


(* ===================================================================== *)
(** * Python values the module handles                                    *)
(* ===================================================================== *)

(** Paths, dictionary keys and messages are [string]s (a message holds
    the UTF-8 bytes of its text).  The phonetic text [koe] is a Python
    [str] seen as its sequence of code points, since what matters about
    it is which characters the [sjis] codec can encode. *)
Definition text := list N.

(** [VOICE_TYPES = ('f1', 'f2', 'm1', 'm2', 'r1', 'dvd', 'jgr', 'imd1')] *)
Definition VOICE_TYPES : list string :=
  ["f1"; "f2"; "m1"; "m2"; "r1"; "dvd"; "jgr"; "imd1"].

(** [VoiceType = enum.Enum('VoiceType', VOICE_TYPES, module=__name__)] *)
Module VoiceType.

Inductive t := f1 | f2 | m1 | m2 | r1 | dvd | jgr | imd1.

#[global] Instance eq_dec : EqDecision t.
Proof. solve_decision. Defined.

Definition members : list t := [f1; f2; m1; m2; r1; dvd; jgr; imd1].

(** [member.name] *)
Definition name (v : t) : string :=
  match v with
  | f1 => "f1" | f2 => "f2" | m1 => "m1" | m2 => "m2"
  | r1 => "r1" | dvd => "dvd" | jgr => "jgr" | imd1 => "imd1"
  end.

(** [VoiceType[key]]: the member of that name, [None] standing for the
    [KeyError] the enum raises. *)
Definition getitem (key : string) : option t :=
  find (fun v => String.eqb (name v) key) members.

End VoiceType.

(** [ctypes] converts a Python int for a [c_int] parameter without any
    overflow check: the value is reduced to 32 bits, two's complement. *)
Definition c_int (v : Z) : Z := (v + 2 ^ 31) mod 2 ^ 32 - 2 ^ 31.

(** What [wave.open] raises on bytes that are no WAV container. *)
Inductive wave_failure :=
| wave_Error (msg : string)
| EOFError.

(** [wave.Wave_read]: the format header and the frames. *)
Record Wave_read := {
  nchannels : Z;
  sampwidth : Z;
  framerate : Z;
  nframes : Z;
  frames : list byte
}.

(* ===================================================================== *)
(** * [class AquesTalkError(Exception)]                                   *)
(* ===================================================================== *)

Record AquesTalkError := {
  err : Z;
  message : string;
  args : string
}.

(** [AquesTalkError.messages] *)
Definition messages : gmap Z string :=
  list_to_map
    [ (100, "その他のエラー");
      (101, "メモリ不足");
      (102, "音声記号列に未定義の読み記号が指定された");
      (103, "韻律データの時間長がマイナスなっている");
      (104, "内部エラー(未定義の区切りコード検出）");
      (105, "音声記号列に未定義の読み記号が指定された");
      (106, "音声記号列のタグの指定が正しくない");
      (107, "タグの長さが制限を越えている（または[>]がみつからない）");
      (108, "タグ内の値の指定が正しくない");
      (109, "WAVE再生ができない（サウンドドライバ関連の問題）");
      (110, "WAVE再生ができない（サウンドドライバ関連の問題非同期再生）");
      (111, "発声すべきデータがない");
      (200, "音声記号列が長すぎる");
      (201, "１つのフレーズ中の読み記号が多すぎる");
      (202, "音声記号列が長い（内部バッファオーバー1）");
      (203, "ヒープメモリ不足");
      (204, "音声記号列が長い（内部バッファオーバー1）") ].

(** [AquesTalkError.__init__(self, err)] *)
Definition AquesTalkError_init (err : Z) : AquesTalkError :=
  let message :=
    match messages !! err with
    | Some m => m
    | None => "不明なエラー"
    end in
  {| err := err;
     message := message;
     args := message +:+ "(" +:+ pretty err +:+ ")" |}.

Inductive exception :=
| Exc_AquesTalkError (e : AquesTalkError)
| UnicodeEncodeError
| KeyError (key : string)
| OSError (filename : string)
| AttributeError (attr : string)
| ValueError (msg : string)
| Exc_wave (f : wave_failure).

(* ===================================================================== *)
(** * [_get_md5_from_file]: the file object and the digest object         *)
(* ===================================================================== *)

(** A file opened with [open(name, 'rb')]: its bytes and the position. *)
Record file_obj := {
  f_data : list byte;
  f_pos : nat
}.

Definition unread (f : file_obj) : list byte := drop (f_pos f) (f_data f).

(** [file.read(size)] on a binary file: at most [size] bytes, all the
    rest when [size] is -1, [b''] at the end of the file; a [size] below
    -1 is refused with [ValueError] ([None] here). *)
Definition file_read (f : file_obj) (size : Z)
  : option (list byte * file_obj) :=
  if size <? -1 then None
  else
    let rest := unread f in
    let chunk := if size <? 0 then rest else take (Z.to_nat size) rest in
    Some (chunk, {| f_data := f_data f; f_pos := (f_pos f + length chunk)%nat |}).

(** [hashlib.md5()]: the object is observed only through [hexdigest],
    which depends on the concatenation of what [update] was given. *)
Record md5_obj := {
  fed : list byte
}.

Definition hashlib_md5 : md5_obj := {| fed := [] |}.

Definition md5_update (md5 : md5_obj) (chunk : list byte) : md5_obj :=
  {| fed := fed md5 ++ chunk |}.

(** [for chunk in iter(lambda: file.read(chunk_size), b''): md5.update(chunk)]
    Every chunk that is not the sentinel [b''] moves the position forward,
    so the loop ends on every file.  [None] when a read raises. *)
Equations? iter_read (chunk_size : Z) (file : file_obj) (md5 : md5_obj)
  : option md5_obj by wf (length (unread file)) lt :=
  iter_read chunk_size file md5 with inspect (file_read file chunk_size) := {
    | exist _ None _ => None
    | exist _ (Some ([], _)) _ => Some md5
    | exist _ (Some (chunk, file')) _ =>
        iter_read chunk_size file' (md5_update md5 chunk) }.
Proof.
  match goal with H : file_read _ _ = _ |- _ => rename H into Hread end.
  unfold file_read in Hread. destruct (chunk_size <? -1); [discriminate|].
  injection Hread as Hchunk <-.
  unfold unread in *; cbn [f_data f_pos].
  set (rest := drop (f_pos file) (f_data file)) in *.
  assert (length (b :: l) <= length rest)%nat.
  { rewrite <- Hchunk.
    destruct (chunk_size <? 0); [lia | rewrite length_take; lia]. }
  rewrite Hchunk. subst rest. rewrite !length_drop in *. cbn in *. lia.
Defined.

(* ===================================================================== *)
(** * The world outside the module, and the monad of its effects          *)
(* ===================================================================== *)

(** What the module does to the outside, in the order it does it. *)
Inductive event :=
| Ev_open (name : string)
| Ev_LoadLibrary (name : string)
| Ev_Synthe (koe : list byte) (speed : Z)
| Ev_FreeWave (c_wav : Z).

Section Model.

(** The state of the foreign side: whatever the DLL keeps, and the
    process memory its pointers point into. *)
Context {F : Type}.

Record World := {
  files : gmap string (list byte);
  foreign : F;
  trace : list event
}.

(** [AquesTalk_Synthe(koe, speed, &size)]: the pointer it returns (0 is
    NULL) and what it writes to [size].  [AquesTalk_FreeWave(wav)]. *)
Definition Synthe_fn : Type := F -> list byte -> Z -> (Z * Z) * F.
Definition FreeWave_fn : Type := F -> Z -> F.

(** A library file as the loader sees it: the exports it has. *)
Record Library := {
  export_Synthe : option Synthe_fn;
  export_FreeWave : option FreeWave_fn
}.

(** The [ctypes] library object once both functions are bound. *)
Record CDLL := {
  AquesTalk_Synthe : Synthe_fn;
  AquesTalk_FreeWave : FreeWave_fn
}.

(** What the module imports and does not define. *)
Record Host := {
  (** [hashlib.md5(data).hexdigest()] *)
  md5_hexdigest_of : list byte -> string;
  (** the [sjis] codec on one character, [None] when it has no encoding *)
  sjis : N -> option (list byte);
  (** [wave.open(io.BytesIO(data), 'rb')] *)
  wave_open : list byte -> Wave_read + wave_failure;
  (** [os.path.join(a, b, c)] and [os.path.dirname(__file__)] *)
  os_path_join : string -> string -> string -> string;
  module_dirname : string;
  (** [ctypes.windll.LoadLibrary(name)], [None] when the loader refuses *)
  windll_LoadLibrary : string -> option Library;
  (** the byte at an address of the foreign memory *)
  peek : F -> Z -> byte
}.

Inductive outcome (A : Type) :=
| Returns (a : A)
| Raises (e : exception).

Definition Py (A : Type) : Type := World -> outcome A * World.

Definition ret {A : Type} (a : A) : Py A := fun w => (Returns A a, w).

Definition raise {A : Type} (e : exception) : Py A := fun w => (Raises A e, w).

Definition bind {A B : Type} (m : Py A) (k : A -> Py B) : Py B :=
  fun w =>
    match m w with
    | (Returns _ a, w') => k a w'
    | (Raises _ e, w') => (Raises B e, w')
    end.

(** The world with more events at the end of its trace. *)
Definition log (w : World) (evs : list event) : World :=
  {| files := files w; foreign := foreign w; trace := trace w ++ evs |}.

Definition emit (ev : event) : Py unit :=
  fun w => (Returns unit tt, log w [ev]).

End Model.

Arguments World : clear implicits.
Arguments Py : clear implicits.
Arguments Library : clear implicits.
Arguments CDLL : clear implicits.
Arguments Host : clear implicits.
Arguments Synthe_fn : clear implicits.
Arguments FreeWave_fn : clear implicits.
Arguments Returns {A} a.
Arguments Raises {A} e.

Declare Scope py_scope.
Delimit Scope py_scope with py.
Notation "x <- m ;; k" := (bind m (fun x => k))
  (at level 100, m at next level, right associativity) : py_scope.
Notation "m ;;; k" := (bind m (fun _ => k))
  (at level 100, right associativity) : py_scope.

(* ===================================================================== *)
(** * The module                                                          *)
(* ===================================================================== *)

Section Module_aquestalk.

Context {F : Type} (host : Host F).

Local Open Scope py_scope.

Local Abbreviation M := (Py F).

(** ** The runtime operations the module performs *)

(** [open(name, 'rb')] *)
Definition open_rb (name : string) : M file_obj :=
  emit (Ev_open name) ;;;
  fun w =>
    match files w !! name with
    | Some data => (Returns {| f_data := data; f_pos := 0 |}, w)
    | None => (Raises (OSError name), w)
    end.

(** [md5.hexdigest()] *)
Definition md5_hexdigest (md5 : md5_obj) : string :=
  md5_hexdigest_of host (fed md5).

(** [d[key]] on a dictionary with string keys *)
Definition dict_getitem {V : Type} (d : gmap string V) (key : string) : M V :=
  match d !! key with
  | Some v => ret v
  | None => raise (KeyError key)
  end.

(** [koe.encode('sjis')]: strict, so one character without an encoding
    makes the whole call fail. *)
Fixpoint encode_sjis (koe : text) : option (list byte) :=
  match koe with
  | [] => Some []
  | c :: rest =>
      match sjis host c, encode_sjis rest with
      | Some bs, Some tail => Some (bs ++ tail)
      | _, _ => None
      end
  end.

(** [c_wav[:size]] on a [POINTER(c_char)]: [size] bytes from the address,
    none when [size] is not positive. *)
Definition pointer_slice (c_wav size : Z) : M (list byte) :=
  fun w =>
    (Returns (map (fun i => peek host (foreign w) (c_wav + Z.of_nat i))
                  (seq 0 (Z.to_nat size))), w).

(** The two foreign calls, each recorded in the trace. *)
Definition call_Synthe (dll : CDLL F) (koe : list byte) (speed : Z) : M (Z * Z) :=
  emit (Ev_Synthe koe speed) ;;;
  fun w =>
    let '(r, f') := AquesTalk_Synthe dll (foreign w) koe speed in
    (Returns r, {| files := files w; foreign := f'; trace := trace w |}).

Definition call_FreeWave (dll : CDLL F) (c_wav : Z) : M unit :=
  emit (Ev_FreeWave c_wav) ;;;
  fun w =>
    (Returns tt,
     {| files := files w;
        foreign := AquesTalk_FreeWave dll (foreign w) c_wav;
        trace := trace w |}).

(** ** [class AquesTalk] *)

Record AquesTalk := {
  _dll : CDLL F;
  _voice_type : option VoiceType.t
}.

(** [AquesTalk.__init__(self, name, voice_type=None)]: the library is
    loaded, then [AquesTalk_Synthe] and [AquesTalk_FreeWave] are looked up
    in it (to set their [argtypes] and [restype]). *)
Definition AquesTalk_init (name : string) (voice_type : option VoiceType.t)
  : M AquesTalk :=
  emit (Ev_LoadLibrary name) ;;;
  match windll_LoadLibrary host name with
  | None => raise (OSError name)
  | Some lib =>
      match export_Synthe lib with
      | None => raise (AttributeError "AquesTalk_Synthe")
      | Some fn_synthe =>
          match export_FreeWave lib with
          | None => raise (AttributeError "AquesTalk_FreeWave")
          | Some fn_free =>
              ret {| _dll := {| AquesTalk_Synthe := fn_synthe;
                                AquesTalk_FreeWave := fn_free |};
                     _voice_type := voice_type |}
          end
      end
  end.

(** [AquesTalk._synthe(self, koe, speed)] *)
Definition _synthe (self : AquesTalk) (koe : text) (speed : Z)
  : M (option Z * Z) :=
  match encode_sjis koe with
  | None => raise UnicodeEncodeError
  | Some koe_bytes =>
      r <- call_Synthe (_dll self) koe_bytes (c_int speed) ;;
      let '(c_wav, c_size) := r in
      ret (if c_wav =? 0 then None else Some c_wav, c_size)
  end.

(** [AquesTalk._freewave(self, c_wav)] *)
Definition _freewave (self : AquesTalk) (c_wav : Z) : M unit :=
  call_FreeWave (_dll self) c_wav.

(** [AquesTalk.synthe_raw(self, koe, speed=100)]; [if not c_wav] is true
    of [None] and of a NULL pointer. *)
Definition synthe_raw (self : AquesTalk) (koe : text) (speed : option Z)
  : M (list byte) :=
  let speed := default 100 speed in
  r <- _synthe self koe speed ;;
  let '(c_wav, size) := r in
  match c_wav with
  | None => raise (Exc_AquesTalkError (AquesTalkError_init size))
  | Some p =>
      if p =? 0 then raise (Exc_AquesTalkError (AquesTalkError_init size))
      else
        wav_raw <- pointer_slice p size ;;
        _freewave self p ;;;
        ret wav_raw
  end.

(** [AquesTalk.synthe(self, koe, speed=100)] *)
Definition synthe (self : AquesTalk) (koe : text) (speed : option Z)
  : M Wave_read :=
  let speed := default 100 speed in
  raw <- synthe_raw self koe (Some speed) ;;
  match wave_open host raw with
  | inl wav => ret wav
  | inr f => raise (Exc_wave f)
  end.

(** [AquesTalk.voice_type] (property) *)
Definition voice_type (self : AquesTalk) : option VoiceType.t :=
  _voice_type self.

(** ** Module-level functions *)

(** [_get_md5_from_file(name, chunk_size=4096)] *)
Definition _get_md5_from_file (name : string) (chunk_size : option Z)
  : M string :=
  let chunk_size := default 4096 chunk_size in
  let md5 := hashlib_md5 in
  file <- open_rb name ;;
  match iter_read chunk_size file md5 with
  | Some md5 => ret (md5_hexdigest md5)
  | None => raise (ValueError "read length must be non-negative or -1")
  end.

(** [_DLL_MD5_DICT] *)
Definition _DLL_MD5_DICT : gmap string VoiceType.t :=
  list_to_map
    [ ("d09ba89e04fc6a848377cb695b7c227a", VoiceType.f1);
      ("23bd3bbfe89e7bb0f92e5e3ed841cec4", VoiceType.f1);
      ("f97a031451220238b21ada12dd2ba6b7", VoiceType.f1);
      ("8bfacc9e1c9d6f1a1f6803739a9ed7d6", VoiceType.f2);
      ("950cb2c4a9493ff3af7906fdb02b523b", VoiceType.m1);
      ("d4491b6ff6aab7e6f3a19dad369d0432", VoiceType.m2);
      ("1a69c64175f46271f9f491890b265762", VoiceType.r1);
      ("cd431c8c86c1566e73cbbb166047b8a9", VoiceType.dvd);
      ("54f15b467cbf215884d29a0ad39a9df3", VoiceType.jgr);
      ("e352165e9da54e255c3c25a33cb85aaa", VoiceType.imd1) ].

(** [load_from_path(path, voice_type, check_voice_type=False)] *)
Definition load_from_path (path : string) (voice_type : VoiceType.t)
    (check_voice_type : option bool) : M AquesTalk :=
  let check_voice_type := default false check_voice_type in
  voice_type <-
    (if negb check_voice_type then
       md5 <- _get_md5_from_file path None ;;
       registered <- dict_getitem _DLL_MD5_DICT md5 ;;
       if bool_decide (registered ≠ voice_type)
       then dict_getitem _DLL_MD5_DICT md5
       else ret voice_type
     else ret voice_type) ;;
  AquesTalk_init path (Some voice_type).

(** The first argument of [load]: a [VoiceType] member or, failing the
    [isinstance] test, a key for [VoiceType[...]]. *)
Inductive voice_arg :=
| Member (v : VoiceType.t)
| Name (s : string).

(** [load(voice_type, check_voice_type=False)] *)
Definition load (voice_type : voice_arg) (check_voice_type : option bool)
  : M AquesTalk :=
  let check_voice_type := default false check_voice_type in
  voice_type <-
    match voice_type with
    | Member v => ret v
    | Name s =>
        match VoiceType.getitem s with
        | Some v => ret v
        | None => raise (KeyError s)
        end
    end ;;
  let path :=
    os_path_join host (module_dirname host) (VoiceType.name voice_type)
                 "AquesTalk.dll" in
  load_from_path path voice_type (Some check_voice_type).

End Module_aquestalk.

Arguments AquesTalk : clear implicits.

(** How often [AquesTalk_FreeWave] was called on the pointer [p]. *)
Fixpoint count_FreeWave (p : Z) (evs : list event) : nat :=
  match evs with
  | [] => 0
  | Ev_FreeWave q :: rest =>
      ((if (q =? p)%Z then 1 else 0) + count_FreeWave p rest)%nat
  | _ :: rest => count_FreeWave p rest
  end.

(** The spec's reading of [synthesize]: the WAV parser applied to what
    [synthesizeRaw] returns, and the failure of [synthesizeRaw] otherwise. *)
Definition synthesize_spec {F : Type} (host : Host F) (self : AquesTalk F)
    (koe : text) (speed : option Z) : Py F Wave_read :=
  fun w =>
    match synthe_raw host self koe speed w with
    | (Returns raw, w') =>
        (match wave_open host raw with
         | inl wav => Returns wav
         | inr f => Raises (Exc_wave f)
         end, w')
    | (Raises e, w') => (Raises e, w')
    end.


(* ===================================================================== *)
(** * A concrete host, for examples                                       *)
(* ===================================================================== *)

Definition b_ (s : string) : list byte := list_byte_of_string s.

Definition bytes_eqb (a b : list byte) : bool :=
  String.eqb (string_of_list_byte a) (string_of_list_byte b).

(** A toy engine.  Its state counts the buffers handed out; every buffer
    is the four bytes [RIFF] at address 4096.  An empty text is error 111
    and a text starting with [!] is error 101. *)
Definition demo_Synthe : Synthe_fn nat :=
  fun n koe speed =>
    match koe with
    | [] => ((0, 111), n)
    | "!"%byte :: _ => ((0, 101), n)
    | _ => ((4096, 4), S n)
    end.

Definition demo_FreeWave : FreeWave_fn nat := fun n c_wav => Nat.pred n.

Definition demo_peek (n : nat) (addr : Z) : byte :=
  nth (Z.to_nat (addr - 4096)) (b_ "RIFF") Byte.x00.

Definition demo_library : Library nat :=
  {| export_Synthe := Some demo_Synthe; export_FreeWave := Some demo_FreeWave |}.

(** The single-byte part of Shift_JIS: ASCII, and the half-width katakana
    U+FF61..U+FF9F on the bytes A1..DF. *)
Definition demo_sjis (c : N) : option (list byte) :=
  if (c <? 128)%N then (fun b => [b]) <$> Byte.of_N c
  else if ((0xFF61 <=? c) && (c <=? 0xFF9F))%N then
    (fun b => [b]) <$> Byte.of_N (c - 0xFF61 + 0xA1)
  else None.

Definition demo_wave_open (data : list byte) : Wave_read + wave_failure :=
  if bytes_eqb (take 4 data) (b_ "RIFF")
  then inl {| nchannels := 1; sampwidth := 2; framerate := 8000;
              nframes := 0; frames := drop 4 data |}
  else inr (wave_Error "file does not start with RIFF id").

Definition f1_path : string := "C:\aquestalk\f1\AquesTalk.dll".
Definition stray_path : string := "C:\tmp\unknown.dll".

(** The bytes of the genuine DLLs are not at hand, so one file stands in
    for the [f1] library: the demo digest gives it the first registered
    [f1] fingerprint and is RFC 1321 on every other content. *)
Definition f1_image : list byte := b_ "AquesTalk f1 (stand-in)".

Definition demo_digest (data : list byte) : string :=
  if bytes_eqb data f1_image then "d09ba89e04fc6a848377cb695b7c227a"
  else MD5.hexdigest data.

Definition demo_host : Host nat :=
  {| md5_hexdigest_of := demo_digest;
     sjis := demo_sjis;
     wave_open := demo_wave_open;
     os_path_join := fun a b c => a +:+ "\" +:+ b +:+ "\" +:+ c;
     module_dirname := "C:\aquestalk";
     windll_LoadLibrary := fun name =>
       if String.eqb name f1_path then Some demo_library else None;
     peek := demo_peek |}.

Definition demo_world : World nat :=
  {| files := {[ f1_path := f1_image; stray_path := [] ]};
     foreign := 0%nat;
     trace := [] |}.

Definition demo_session : AquesTalk nat :=
  {| _dll := {| AquesTalk_Synthe := demo_Synthe;
                AquesTalk_FreeWave := demo_FreeWave |};
     _voice_type := Some VoiceType.f1 |}.

(* ===================================================================== *)
(** * Reading traces                                                      *)
(* ===================================================================== *)

(** Line 236 of [load]: where the library of a voice type is looked for. *)
Definition dll_path {F : Type} (host : Host F) (v : VoiceType.t) : string :=
  os_path_join host (module_dirname host) (VoiceType.name v) "AquesTalk.dll".

(** A trace in which every [AquesTalk_FreeWave] comes right after an
    [AquesTalk_Synthe], and is never given the null pointer. *)
Fixpoint well_paired (evs : list event) : bool :=
  match evs with
  | [] => true
  | Ev_FreeWave _ :: _ => false
  | Ev_Synthe _ _ :: Ev_FreeWave p :: rest => negb (p =? 0) && well_paired rest
  | _ :: rest => well_paired rest
  end.

(* ===================================================================== *)
(** * A second engine, which wipes a buffer when it is released           *)
(* ===================================================================== *)

(** Its state says whether the buffer at address 8192 is live.  A text of
    [n] bytes gets the first [n] bytes of [RIFFWAVE]; an empty text is
    error 111.  Released memory reads as zeros. *)
Definition scrub_Synthe : Synthe_fn bool :=
  fun live koe speed =>
    match koe with
    | [] => ((0, 111), live)
    | _ => ((8192, Z.of_nat (length koe)), true)
    end.

Definition scrub_FreeWave : FreeWave_fn bool := fun live c_wav => false.

Definition scrub_peek (live : bool) (addr : Z) : byte :=
  if live then nth (Z.to_nat (addr - 8192)) (b_ "RIFFWAVE") Byte.x00
  else Byte.x00.

Definition f2_path : string := "C:\aquestalk\f2\AquesTalk.dll".

(** A host whose [f2] directory holds the stand-in for the [f1] library. *)
Definition scrub_host : Host bool :=
  {| md5_hexdigest_of := demo_digest;
     sjis := demo_sjis;
     wave_open := demo_wave_open;
     os_path_join := fun a b c => a +:+ "\" +:+ b +:+ "\" +:+ c;
     module_dirname := "C:\aquestalk";
     windll_LoadLibrary := fun name =>
       if String.eqb name f2_path
       then Some {| export_Synthe := Some scrub_Synthe;
                    export_FreeWave := Some scrub_FreeWave |}
       else if String.eqb name stray_path
       then Some {| export_Synthe := None;
                    export_FreeWave := Some scrub_FreeWave |}
       else None;
     peek := scrub_peek |}.

Definition swapped_world : World bool :=
  {| files := {[ f2_path := f1_image ]}; foreign := false; trace := [] |}.

Definition scrub_session : AquesTalk bool :=
  {| _dll := {| AquesTalk_Synthe := scrub_Synthe;
                AquesTalk_FreeWave := scrub_FreeWave |};
     _voice_type := None |}.

(** Unfolds a run of the synthesis methods down to the foreign calls. *)
Ltac run_py :=
  unfold synthe, synthe_raw, _synthe, _freewave, call_Synthe, call_FreeWave,
    pointer_slice, bind, ret, raise, emit, log;
  cbn [fst snd files foreign trace].

(* ===================================================================== *)
(** * The digest on the RFC 1321 test suite                               *)
(* ===================================================================== *)

Example md5_of_empty : MD5.hexdigest [] = "d41d8cd98f00b204e9800998ecf8427e".
Proof. vm_compute. reflexivity. Qed.

Example md5_of_a : MD5.hexdigest (b_ "a") = "0cc175b9c0f1b6a831c399e269772661".
Proof. vm_compute. reflexivity. Qed.

Example md5_of_abc :
  MD5.hexdigest (b_ "abc") = "900150983cd24fb0d6963f7d28e17f72".
Proof. vm_compute. reflexivity. Qed.

Example md5_of_message_digest :
  MD5.hexdigest (b_ "message digest") = "f96b697d7cb7938d525a2f31aaf161d0".
Proof. vm_compute. reflexivity. Qed.

(** Two blocks after padding, and three. *)
Example md5_of_56_bytes :
  MD5.hexdigest (replicate 56 "x"%byte) = "668a72d5ba17f08e62dabcafad6db14b".
Proof. vm_compute. reflexivity. Qed.

Example md5_of_130_bytes :
  MD5.hexdigest (replicate 130 "x"%byte) = "cfc92f41305ca00c9f9584bf67ae1b54".
Proof. vm_compute. reflexivity. Qed.

(* ===================================================================== *)
(** * Basic facts                                                         *)
(* ===================================================================== *)

Lemma VoiceType_names : map VoiceType.name VoiceType.members = VOICE_TYPES.
Proof. reflexivity. Qed.

Lemma VoiceType_getitem_name (v : VoiceType.t) :
  VoiceType.getitem (VoiceType.name v) = Some v.
Proof. destruct v; reflexivity. Qed.

Lemma c_int_in_range (v : Z) : - 2 ^ 31 <= v < 2 ^ 31 -> c_int v = v.
Proof. intros Hv. unfold c_int. rewrite Z.mod_small; lia. Qed.

Lemma c_int_bounds (v : Z) : - 2 ^ 31 <= c_int v < 2 ^ 31.
Proof.
  unfold c_int.
  pose proof (Z.mod_pos_bound (v + 2 ^ 31) (2 ^ 32) ltac:(lia)). lia.
Qed.

Section Facts.

Context {F : Type} (host : Host F).

Lemma log_nil (w : World F) : log w [] = w.
Proof. destruct w; unfold log; cbn. by rewrite app_nil_r. Qed.

Lemma log_log (w : World F) (a b : list event) :
  log (log w a) b = log w (a ++ b).
Proof. unfold log; cbn. by rewrite app_assoc. Qed.

(** The loop feeds the digest object the unread bytes, chunk after chunk,
    and nothing at all when the chunk size is 0 (the first read is then
    already the sentinel); a chunk size below -1 makes the first read
    raise. *)
Lemma iter_read_fed (chunk_size : Z) (file : file_obj) (md5 : md5_obj) :
  iter_read chunk_size file md5 =
  if chunk_size <? -1 then None
  else Some {| fed := fed md5
                      ++ (if chunk_size =? 0 then [] else unread file) |}.
Proof.
  funelim (iter_read chunk_size file md5);
    match goal with Hcall : _ = iter_read _ _ _ |- _ => clear Hcall end;
    match goal with Hs : @eq (sigma _) _ _ |- _ => clear Hs end;
    match goal with Hr : file_read _ _ = _ |- _ => rename Hr into Hread end;
    unfold file_read in Hread;
    destruct (chunk_size <? -1) eqn:Hlow; try discriminate; [| |reflexivity].
  - (* the first read is the sentinel *)
    injection Hread as Hread _. destruct md5 as [sofar]. cbn [fed]. do 2 f_equal.
    destruct (Z.eqb_spec chunk_size 0) as [->|Hne]; [by rewrite app_nil_r|].
    destruct (chunk_size <? 0) eqn:Hneg.
    + by rewrite Hread, app_nil_r.
    + apply (f_equal length) in Hread. rewrite length_take in Hread.
      cbn in Hread.
      assert (length (unread file) = 0)%nat as Hlen by lia.
      apply nil_length_inv in Hlen. by rewrite Hlen, app_nil_r.
  - (* a chunk was read *)
    injection Hread as Hread <-.
    match goal with IH : iter_read _ _ _ = _ |- _ => rewrite IH end.
    cbn [md5_update fed]. do 2 f_equal.
    destruct (Z.eqb_spec chunk_size 0) as [->|Hne].
    { cbn in Hread. rewrite take_0 in Hread. discriminate. }
    rewrite <- app_assoc. f_equal.
    unfold unread at 1; cbn [f_data f_pos].
    rewrite <- drop_drop. fold (unread file).
    rewrite Hread.
    rewrite <- (take_drop (length (b :: l)) (unread file)) at 2.
    f_equal.
    destruct (chunk_size <? 0).
    + rewrite Hread. by rewrite take_ge.
    + rewrite <- Hread. rewrite length_take.
      destruct (decide (Z.to_nat chunk_size <= length (unread file))%nat).
      * by rewrite Nat.min_l.
      * rewrite Nat.min_r by lia. rewrite !take_ge; [done | lia | lia].
Qed.

Lemma encode_sjis_None (koe : text) :
  encode_sjis host koe = None <-> exists c, c ∈ koe /\ sjis host c = None.
Proof.
  induction koe as [|c rest IH]; cbn.
  - split; [discriminate | intros (c & Hc & _); inversion Hc].
  - destruct (sjis host c) as [bs|] eqn:Hc.
    + destruct (encode_sjis host rest) as [tail|].
      * split; [discriminate|]. intros (c' & Hin & Hnone).
        apply elem_of_cons in Hin as [->|Hin]; [congruence|].
        destruct IH as [_ IH]. discriminate IH. by exists c'.
      * split; [|done]. intros _. destruct IH as [IH _].
        destruct (IH eq_refl) as (c' & Hin & Hnone).
        exists c'. split; [by apply list_elem_of_further | done].
    + split; [|done]. intros _. exists c. split; [apply list_elem_of_here | done].
Qed.

(** ** Running [synthe_raw] *)

(** The three ways a call of [synthe_raw] can go. *)
Lemma synthe_raw_unencodable_run (self : AquesTalk F) (koe : text)
    (speed : option Z) (w : World F) :
  encode_sjis host koe = None ->
  synthe_raw host self koe speed w = (Raises UnicodeEncodeError, w).
Proof. intros Henc. run_py. by rewrite Henc. Qed.

Lemma synthe_raw_null_run (self : AquesTalk F) (koe : text)
    (speed : option Z) (w : World F) (koe_bytes : list byte) (size : Z) (f' : F) :
  encode_sjis host koe = Some koe_bytes ->
  AquesTalk_Synthe (_dll self) (foreign w) koe_bytes (c_int (default 100 speed))
    = ((0, size), f') ->
  synthe_raw host self koe speed w
  = (Raises (Exc_AquesTalkError (AquesTalkError_init size)),
     {| files := files w; foreign := f';
        trace := trace w ++ [Ev_Synthe koe_bytes (c_int (default 100 speed))] |}).
Proof. intros Henc Hcall. run_py. rewrite Henc. cbn. by rewrite Hcall. Qed.

Lemma synthe_raw_buffer_run (self : AquesTalk F) (koe : text)
    (speed : option Z) (w : World F) (koe_bytes : list byte)
    (c_wav size : Z) (f' : F) :
  encode_sjis host koe = Some koe_bytes ->
  AquesTalk_Synthe (_dll self) (foreign w) koe_bytes (c_int (default 100 speed))
    = ((c_wav, size), f') ->
  c_wav <> 0 ->
  synthe_raw host self koe speed w
  = (Returns (map (fun i => peek host f' (c_wav + Z.of_nat i))
                  (seq 0 (Z.to_nat size))),
     {| files := files w;
        foreign := AquesTalk_FreeWave (_dll self) f' c_wav;
        trace := trace w ++ [Ev_Synthe koe_bytes (c_int (default 100 speed));
                             Ev_FreeWave c_wav] |}).
Proof.
  intros Henc Hcall Hnn. run_py. rewrite Henc. cbn. rewrite Hcall.
  apply Z.eqb_neq in Hnn. rewrite Hnn. cbn. rewrite Hnn. cbn.
  by rewrite <- app_assoc.
Qed.

End Facts.

(* ===================================================================== *)
(** * [synthe_raw], [synthe] and [AquesTalkError]                          *)
(* ===================================================================== *)

Section Synthesis.

Context {F : Type} (host : Host F).

(** C3. In a call of [synthe_raw] that reaches the foreign synthesize
    call: when that call returns a non-null pointer, the trace of the
    call is the synthesize call followed by one [AquesTalk_FreeWave] on
    that very pointer, so the buffer is released once before [synthe_raw]
    returns; when it returns the null pointer, the trace holds no
    [AquesTalk_FreeWave] at all.  In both cases no pointer is released
    more than once. *)
Theorem synthe_raw_frees_exactly_once
    (self : AquesTalk F) (koe : text) (speed : option Z) (w : World F)
    (koe_bytes : list byte) (c_wav size : Z) (f' : F) :
  encode_sjis host koe = Some koe_bytes ->
  AquesTalk_Synthe (_dll self) (foreign w) koe_bytes (c_int (default 100 speed))
    = ((c_wav, size), f') ->
  let w' := snd (synthe_raw host self koe speed w) in
  let call := Ev_Synthe koe_bytes (c_int (default 100 speed)) in
  exists evs,
    trace w' = trace w ++ call :: evs
    /\ (c_wav <> 0 -> evs = [Ev_FreeWave c_wav]
                     /\ count_FreeWave c_wav evs = 1%nat
                     /\ foreign w' = AquesTalk_FreeWave (_dll self) f' c_wav)
    /\ (c_wav = 0 -> evs = [] /\ foreign w' = f')
    /\ (forall p, count_FreeWave p evs <= 1)%nat
    /\ (forall p, p <> c_wav -> count_FreeWave p evs = 0%nat).
Proof.
  intros Henc Hcall w' call.
  destruct (Z.eq_dec c_wav 0) as [->|Hnn].
  - exists []. subst w'.
    rewrite (synthe_raw_null_run host self koe speed w _ _ _ Henc Hcall).
    cbn. repeat split; auto; try lia.
  - exists [Ev_FreeWave c_wav]. subst w'.
    rewrite (synthe_raw_buffer_run host self koe speed w _ _ _ _ Henc Hcall Hnn).
    cbn. rewrite Z.eqb_refl. repeat split; auto; try lia.
    + intros p. destruct (c_wav =? p); cbn; lia.
    + intros p Hp. destruct (Z.eqb_spec c_wav p); [congruence | done].
Qed.

(** C4. When the foreign call returns the null pointer, [synthe_raw]
    raises [AquesTalkError] whose [err] is the value left in the size
    field and whose [message] is the table's entry for it; for 101 that
    is the out-of-memory message. *)
Theorem synthe_raw_null_pointer_raises
    (self : AquesTalk F) (koe : text) (speed : option Z) (w : World F)
    (koe_bytes : list byte) (code : Z) (f' : F) :
  encode_sjis host koe = Some koe_bytes ->
  AquesTalk_Synthe (_dll self) (foreign w) koe_bytes (c_int (default 100 speed))
    = ((0, code), f') ->
  exists e,
    fst (synthe_raw host self koe speed w) = Raises (Exc_AquesTalkError e)
    /\ err e = code
    /\ message e = default "不明なエラー" (messages !! code)
    /\ (code = 101 -> err e = 101 /\ message e = "メモリ不足").
Proof.
  intros Henc Hcall. exists (AquesTalkError_init code).
  rewrite (synthe_raw_null_run host self koe speed w _ _ _ Henc Hcall).
  cbn [fst AquesTalkError_init err message].
  split; [done|]. split; [done|].
  split; [by destruct (messages !! code)|].
  intros ->. split; reflexivity.
Qed.

(** C6. A text with a character the codec cannot encode makes
    [synthe_raw] raise [UnicodeEncodeError], which is no [AquesTalkError];
    the world is left as it was: no foreign call, no buffer release. *)
Theorem synthe_raw_encoding_error_before_foreign_call
    (self : AquesTalk F) (koe : text) (speed : option Z) (w : World F) (c : N) :
  c ∈ koe ->
  sjis host c = None ->
  synthe_raw host self koe speed w = (Raises UnicodeEncodeError, w)
  /\ trace (snd (synthe_raw host self koe speed w)) = trace w
  /\ forall e, UnicodeEncodeError <> Exc_AquesTalkError e.
Proof.
  intros Hin Hc.
  assert (encode_sjis host koe = None) as Henc
    by (apply encode_sjis_None; eauto).
  rewrite (synthe_raw_unencodable_run host self koe speed w Henc).
  repeat split; intros; discriminate.
Qed.

(** C7. [synthe] is [wave.open] applied to what [synthe_raw] returns, and
    it raises [AquesTalkError] exactly when [synthe_raw] does, with the
    same error. *)
Theorem synthe_is_wave_open_of_synthe_raw
    (self : AquesTalk F) (koe : text) (speed : option Z) (w : World F) :
  synthe host self koe speed w = synthesize_spec host self koe speed w
  /\ forall e,
       fst (synthe host self koe speed w) = Raises (Exc_AquesTalkError e)
       <-> fst (synthe_raw host self koe speed w) = Raises (Exc_AquesTalkError e).
Proof.
  assert (synthe host self koe speed w = synthesize_spec host self koe speed w)
    as Heq.
  { unfold synthe, synthesize_spec, bind.
    replace (synthe_raw host self koe (Some (default 100 speed)))
      with (synthe_raw host self koe speed) by (by destruct speed).
    destruct (synthe_raw host self koe speed w) as [[raw|e] w']; [|done].
    by destruct (wave_open host raw). }
  split; [done|]. intros e. rewrite Heq. unfold synthesize_spec.
  destruct (synthe_raw host self koe speed w) as [[raw|e'] w']; cbn.
  - destruct (wave_open host raw); split; discriminate.
  - split; intros [= ->]; reflexivity.
Qed.

(** C9 (amended). [synthe_raw] checks nothing about [speed]: once the text
    is encoded the foreign call is made with [speed] converted to a C
    [int], which is [speed] itself for every value that fits 32 bits
    (inside [50,300] or not) and otherwise the one value between -2^31
    and 2^31 - 1 that equals [speed] modulo 2^32; what
    [synthe_raw] then returns or raises is decided by the reply of the
    foreign call alone.  An omitted [speed] is 100. *)
Theorem synthe_raw_passes_speed_as_c_int
    (self : AquesTalk F) (koe : text) (speed : option Z) (w : World F)
    (koe_bytes : list byte) :
  encode_sjis host koe = Some koe_bytes ->
  let s := default 100 speed in
  let reply :=
    AquesTalk_Synthe (_dll self) (foreign w) koe_bytes (c_int s) in
  let c_wav := fst (fst reply) in
  let size := snd (fst reply) in
  (exists evs, trace (snd (synthe_raw host self koe speed w))
               = trace w ++ Ev_Synthe koe_bytes (c_int s) :: evs)
  /\ (- 2 ^ 31 <= s < 2 ^ 31 -> c_int s = s)
  /\ - 2 ^ 31 <= c_int s < 2 ^ 31
  /\ c_int s mod 2 ^ 32 = s mod 2 ^ 32
  /\ fst (synthe_raw host self koe speed w)
     = (if c_wav =? 0
        then Raises (Exc_AquesTalkError (AquesTalkError_init size))
        else Returns (map (fun i => peek host (snd reply) (c_wav + Z.of_nat i))
                          (seq 0 (Z.to_nat size))))
  /\ synthe_raw host self koe None w = synthe_raw host self koe (Some 100) w.
Proof.
  intros Henc s reply c_wav size.
  destruct reply as [[p n] f'] eqn:Hreply. subst c_wav size. cbn [fst snd].
  split; [|split; [apply c_int_in_range|split; [apply c_int_bounds|
    split; [|split; [|reflexivity]]]]].
  - destruct (Z.eq_dec p 0) as [->|Hnn].
    + rewrite (synthe_raw_null_run host self koe speed w _ _ _ Henc Hreply).
      by exists [].
    + rewrite (synthe_raw_buffer_run host self koe speed w _ _ _ _ Henc Hreply Hnn).
      by exists [Ev_FreeWave p].
  - unfold c_int.
    rewrite <- Zminus_mod_idemp_l, Z.mod_mod by lia.
    rewrite Zminus_mod_idemp_l. f_equal. lia.
  - destruct (Z.eqb_spec p 0) as [->|Hnn].
    + by rewrite (synthe_raw_null_run host self koe speed w _ _ _ Henc Hreply).
    + by rewrite (synthe_raw_buffer_run host self koe speed w _ _ _ _ Henc Hreply Hnn).
Qed.

End Synthesis.

(** C5. A code that is not a key of [messages] gets the generic message,
    and [err] keeps the code as it was given. *)
Theorem AquesTalkError_unknown_code (code : Z) :
  messages !! code = None ->
  err (AquesTalkError_init code) = code
  /\ message (AquesTalkError_init code) = "不明なエラー".
Proof.
  intros Hnone. unfold AquesTalkError_init. cbn [err message].
  by rewrite Hnone.
Qed.

(* ===================================================================== *)
(** * The fingerprint and the loader                                      *)
(* ===================================================================== *)

Section Loader.

Context {F : Type} (host : Host F).

(** Reading in chunks gives the digest of the whole file, whatever the
    chunk size the file object accepts, 0 apart. *)
Lemma _get_md5_from_file_run (name : string) (chunk_size : option Z)
    (w : World F) (data : list byte) :
  files w !! name = Some data ->
  default 4096 chunk_size <> 0 ->
  -1 <= default 4096 chunk_size ->
  _get_md5_from_file host name chunk_size w
  = (Returns (md5_hexdigest_of host data), log w [Ev_open name]).
Proof.
  intros Hfile Hcs Hlow.
  unfold _get_md5_from_file, open_rb, bind, emit, ret. cbn [files log].
  rewrite Hfile. rewrite iter_read_fed.
  apply Z.eqb_neq in Hcs. rewrite Hcs.
  apply Z.ltb_ge in Hlow. rewrite Hlow.
  unfold md5_hexdigest. cbn. by rewrite drop_0.
Qed.

Lemma _get_md5_from_file_missing (name : string) (chunk_size : option Z)
    (w : World F) :
  files w !! name = None ->
  _get_md5_from_file host name chunk_size w
  = (Raises (OSError name), log w [Ev_open name]).
Proof.
  intros Hfile.
  unfold _get_md5_from_file, open_rb, bind, emit, ret. cbn [files log].
  by rewrite Hfile.
Qed.


Lemma AquesTalk_init_run (name : string) (voice : option VoiceType.t)
    (w : World F) (fn_synthe : Synthe_fn F) (fn_free : FreeWave_fn F) :
  windll_LoadLibrary host name
    = Some {| export_Synthe := Some fn_synthe; export_FreeWave := Some fn_free |} ->
  AquesTalk_init host name voice w
  = (Returns {| _dll := {| AquesTalk_Synthe := fn_synthe;
                           AquesTalk_FreeWave := fn_free |};
                _voice_type := voice |},
     log w [Ev_LoadLibrary name]).
Proof.
  intros Hlib. unfold AquesTalk_init, bind, emit. rewrite Hlib. reflexivity.
Qed.

(** With [check_voice_type=True] the file is not even opened. *)
Lemma load_from_path_check_true (path : string) (hint : VoiceType.t)
    (w : World F) :
  load_from_path host path hint (Some true) w
  = AquesTalk_init host path (Some hint) w.
Proof. reflexivity. Qed.

(** With [check_voice_type] false or omitted the digest is looked up, and
    a registered fingerprint decides the voice type of the session. *)
Lemma load_from_path_check_false (path : string) (hint : VoiceType.t)
    (check : option bool) (w : World F) (data : list byte)
    (registered : VoiceType.t) :
  default false check = false ->
  files w !! path = Some data ->
  _DLL_MD5_DICT !! md5_hexdigest_of host data = Some registered ->
  load_from_path host path hint check w
  = AquesTalk_init host path (Some registered) (log w [Ev_open path]).
Proof.
  intros Hcheck Hfile Hreg. unfold load_from_path. rewrite Hcheck.
  cbn [negb]. unfold bind at 1. unfold bind at 1.
  rewrite (_get_md5_from_file_run path None w data Hfile) by done.
  unfold bind at 1. unfold dict_getitem. rewrite Hreg. unfold ret at 1.
  case_bool_decide as Hne; unfold ret; [done|]. by subst.
Qed.






(** C1 (what the code does where the claim applies). With
    [check_voice_type=True] the loader does not fingerprint the file: it
    does not open it, and the session it returns carries the caller's
    voice type even though the file is registered under another one. *)
Theorem load_from_path_check_true_keeps_hint
    (path : string) (w : World F) (data : list byte)
    (registered hint : VoiceType.t)
    (fn_synthe : Synthe_fn F) (fn_free : FreeWave_fn F) :
  files w !! path = Some data ->
  _DLL_MD5_DICT !! md5_hexdigest_of host data = Some registered ->
  registered <> hint ->
  windll_LoadLibrary host path
    = Some {| export_Synthe := Some fn_synthe; export_FreeWave := Some fn_free |} ->
  exists session,
    load_from_path host path hint (Some true) w
    = (Returns session, log w [Ev_LoadLibrary path])
    /\ voice_type session = Some hint
    /\ voice_type session <> Some registered.
Proof.
  intros _ _ Hne Hlib. eexists. rewrite load_from_path_check_true.
  rewrite (AquesTalk_init_run path (Some hint) w _ _ Hlib).
  split; [reflexivity|]. cbn. split; [done | congruence].
Qed.

(** C2 (what the code does where the claim applies). With
    [check_voice_type] false or omitted, a file whose digest is no key of
    [_DLL_MD5_DICT] makes [load_from_path] raise [KeyError] on the digest,
    after the file was read and before any library is loaded: no session
    is returned. *)
Theorem load_from_path_unknown_fingerprint_raises
    (path : string) (hint : VoiceType.t) (check : option bool)
    (w : World F) (data : list byte) :
  default false check = false ->
  files w !! path = Some data ->
  _DLL_MD5_DICT !! md5_hexdigest_of host data = None ->
  load_from_path host path hint check w
  = (Raises (KeyError (md5_hexdigest_of host data)), log w [Ev_open path]).
Proof.
  intros Hcheck Hfile Hreg. unfold load_from_path. rewrite Hcheck.
  cbn [negb]. unfold bind at 1. unfold bind at 1.
  rewrite (_get_md5_from_file_run path None w data Hfile) by done.
  unfold bind at 1. unfold dict_getitem. by rewrite Hreg.
Qed.



End Loader.

(* ===================================================================== *)
(** * The theorems at concrete inputs                                     *)
(* ===================================================================== *)

(** The phonetic text [ko], the text [!] the toy engine answers with
    error 101, and a text with U+00E9, which Shift_JIS cannot encode. *)
Example demo_run_buffer :
  synthe_raw demo_host demo_session [107; 111]%N None demo_world
  = (Returns (b_ "RIFF"),
     {| files := files demo_world; foreign := 0%nat;
        trace := [Ev_Synthe (b_ "ko") 100; Ev_FreeWave 4096] |}).
Proof. reflexivity. Qed.

Example demo_run_null :
  fst (synthe_raw demo_host demo_session [] (Some 100) demo_world)
  = Raises (Exc_AquesTalkError
              {| err := 111;
                 message := "発声すべきデータがない";
                 args := "発声すべきデータがない(111)" |}).
Proof. vm_compute. reflexivity. Qed.

Example demo_run_synthe :
  fst (synthe demo_host demo_session [107; 111]%N None demo_world)
  = Returns {| nchannels := 1; sampwidth := 2; framerate := 8000;
               nframes := 0; frames := [] |}.
Proof. vm_compute. reflexivity. Qed.

(** The override of the caller's voice type is on the other value of the
    flag: omitted (or false), the registered fingerprint wins. *)
Example demo_run_default_flag_overrides :
  exists session,
    fst (load_from_path demo_host f1_path VoiceType.f2 None demo_world)
    = Returns session
    /\ voice_type session = Some VoiceType.f1.
Proof. eexists. split; vm_compute; reflexivity. Qed.

Lemma load_from_path_check_true_keeps_hint_witness :
  exists session,
    load_from_path demo_host f1_path VoiceType.f2 (Some true) demo_world
    = (Returns session, log demo_world [Ev_LoadLibrary f1_path])
    /\ voice_type session = Some VoiceType.f2
    /\ voice_type session <> Some VoiceType.f1.
Proof.
  apply (load_from_path_check_true_keeps_hint demo_host f1_path demo_world
           f1_image VoiceType.f1 VoiceType.f2 demo_Synthe demo_FreeWave).
  - vm_compute. reflexivity.
  - vm_compute. reflexivity.
  - discriminate.
  - reflexivity.
Defined.

Lemma load_from_path_unknown_fingerprint_raises_witness :
  load_from_path demo_host stray_path VoiceType.f2 None demo_world
  = (Raises (KeyError (md5_hexdigest_of demo_host [])),
     log demo_world [Ev_open stray_path])
  /\ md5_hexdigest_of demo_host [] = "d41d8cd98f00b204e9800998ecf8427e".
Proof.
  split.
  - apply (load_from_path_unknown_fingerprint_raises demo_host stray_path
             VoiceType.f2 None demo_world []).
    + reflexivity.
    + vm_compute. reflexivity.
    + vm_compute. reflexivity.
  - vm_compute. reflexivity.
Defined.

Lemma synthe_raw_frees_exactly_once_witness :
  trace (snd (synthe_raw demo_host demo_session [107; 111]%N None demo_world))
  = [Ev_Synthe (b_ "ko") 100; Ev_FreeWave 4096]
  /\ count_FreeWave 4096 [Ev_FreeWave 4096] = 1%nat.
Proof.
  destruct (synthe_raw_frees_exactly_once demo_host demo_session
              [107; 111]%N None demo_world (b_ "ko") 4096 4 1%nat
              eq_refl eq_refl) as (evs & Htrace & Hbuffer & _).
  destruct (Hbuffer ltac:(discriminate)) as (Hevs & Hcount & _).
  rewrite Hevs in Htrace, Hcount. split; [exact Htrace | exact Hcount].
Defined.

Lemma synthe_raw_null_pointer_raises_witness :
  exists e,
    fst (synthe_raw demo_host demo_session [33]%N None demo_world)
    = Raises (Exc_AquesTalkError e)
    /\ err e = 101
    /\ message e = "メモリ不足".
Proof.
  destruct (synthe_raw_null_pointer_raises demo_host demo_session [33]%N
              None demo_world (b_ "!") 101 0%nat eq_refl eq_refl)
    as (e & Hraise & Herr & _ & Hoom).
  exists e. split; [exact Hraise|]. split; [exact Herr|].
  exact (proj2 (Hoom eq_refl)).
Defined.

Lemma AquesTalkError_unknown_code_witness :
  err (AquesTalkError_init 999) = 999
  /\ message (AquesTalkError_init 999) = "不明なエラー".
Proof. apply (AquesTalkError_unknown_code 999). reflexivity. Defined.

Lemma synthe_raw_encoding_error_witness :
  synthe_raw demo_host demo_session [107; 233; 111]%N None demo_world
  = (Raises UnicodeEncodeError, demo_world).
Proof.
  apply (synthe_raw_encoding_error_before_foreign_call demo_host demo_session
           [107; 233; 111]%N None demo_world 233%N).
  - apply list_elem_of_further, list_elem_of_here.
  - reflexivity.
Defined.


Lemma synthe_raw_passes_speed_as_c_int_witness :
  exists evs,
    trace (snd (synthe_raw demo_host demo_session [107; 111]%N (Some 1000)
                  demo_world))
    = trace demo_world ++ Ev_Synthe (b_ "ko") (c_int 1000) :: evs.
Proof.
  exact (proj1 (synthe_raw_passes_speed_as_c_int demo_host demo_session
                  [107; 111]%N (Some 1000) demo_world (b_ "ko") eq_refl)).
Defined.


(** C9 as it was stated fails: a speed that does not fit a C [int] does
    not reach the foreign call as it was given.  For 2^32 + 100 the call
    is made with 100. *)
Lemma synthe_raw_speed_not_passed_verbatim :
  trace (snd (synthe_raw demo_host demo_session [107; 111]%N
                (Some 4294967396) demo_world))
  = [Ev_Synthe (b_ "ko") 100; Ev_FreeWave 4096]
  /\ (4294967396 =? 100) = false.
Proof. split; reflexivity. Qed.

(* ===================================================================== *)
(** * Further properties of the loader                                    *)
(* ===================================================================== *)

Section Loader_more.

Context {F : Type} (host : Host F).

(** However they end, [AquesTalk.__init__] and [_get_md5_from_file] add
    one event to the trace and change nothing else. *)
Lemma AquesTalk_init_world (name : string) (voice : option VoiceType.t)
    (w : World F) :
  snd (AquesTalk_init host name voice w) = log w [Ev_LoadLibrary name].
Proof.
  unfold AquesTalk_init, bind, emit.
  destruct (windll_LoadLibrary host name) as [[[fs|] [ff|]]|]; reflexivity.
Qed.

Lemma _get_md5_from_file_world (name : string) (chunk_size : option Z)
    (w : World F) :
  snd (_get_md5_from_file host name chunk_size w) = log w [Ev_open name].
Proof.
  unfold _get_md5_from_file, open_rb, bind, emit, ret. cbn [files log].
  destruct (files w !! name) as [data|]; [|reflexivity].
  by destruct (iter_read _ _ _).
Qed.

(** The world after [load_from_path]: the file was opened or not, the
    library was asked for or not, and that is all. *)
Lemma load_from_path_world (path : string) (hint : VoiceType.t)
    (check : option bool) (w : World F) :
  snd (load_from_path host path hint check w)
  ∈ [ log w [Ev_LoadLibrary path];
      log w [Ev_open path];
      log w [Ev_open path; Ev_LoadLibrary path] ].
Proof.
  unfold load_from_path. destruct (default false check); cbn [negb].
  - change (snd (AquesTalk_init host path (Some hint) w) ∈
            [ log w [Ev_LoadLibrary path]; log w [Ev_open path];
              log w [Ev_open path; Ev_LoadLibrary path] ]).
    rewrite AquesTalk_init_world. apply list_elem_of_here.
  - unfold bind at 1. unfold bind at 1.
    pose proof (_get_md5_from_file_world path None w) as Hw.
    destruct (_get_md5_from_file host path None w) as [[md5|e] w1];
      cbn [snd] in Hw; subst w1.
    2: { apply list_elem_of_further, list_elem_of_here. }
    unfold bind at 1, dict_getitem.
    destruct (_DLL_MD5_DICT !! md5) as [v|].
    2: { apply list_elem_of_further, list_elem_of_here. }
    unfold ret at 1.
    assert (forall voice,
              snd (AquesTalk_init host path voice (log w [Ev_open path]))
              = log w [Ev_open path; Ev_LoadLibrary path]) as Hinit.
    { intros voice. rewrite AquesTalk_init_world. apply log_log. }
    case_bool_decide; unfold ret; rewrite Hinit;
      do 2 apply list_elem_of_further; apply list_elem_of_here.
Qed.

(** X1. With [check_voice_type] false or omitted, a path with no file
    makes [load_from_path] raise the error of [open]; the library is not
    asked for. *)
Theorem load_from_path_missing_file_raises
    (path : string) (hint : VoiceType.t) (check : option bool) (w : World F) :
  default false check = false ->
  files w !! path = None ->
  load_from_path host path hint check w
  = (Raises (OSError path), log w [Ev_open path]).
Proof.
  intros Hcheck Hfile. unfold load_from_path. rewrite Hcheck. cbn [negb].
  unfold bind at 1. unfold bind at 1.
  by rewrite (_get_md5_from_file_missing host path None w Hfile).
Qed.


(** X3. With [check_voice_type] false or omitted and a file whose digest
    is registered, the session carries the registered voice type whatever
    the caller passed; the file is read first, the library loaded next. *)
Theorem load_from_path_default_flag_uses_fingerprint
    (path : string) (hint : VoiceType.t) (check : option bool) (w : World F)
    (data : list byte) (registered : VoiceType.t)
    (fn_synthe : Synthe_fn F) (fn_free : FreeWave_fn F) :
  default false check = false ->
  files w !! path = Some data ->
  _DLL_MD5_DICT !! md5_hexdigest_of host data = Some registered ->
  windll_LoadLibrary host path
    = Some {| export_Synthe := Some fn_synthe; export_FreeWave := Some fn_free |} ->
  exists session,
    load_from_path host path hint check w
    = (Returns session, log w [Ev_open path; Ev_LoadLibrary path])
    /\ voice_type session = Some registered.
Proof.
  intros Hcheck Hfile Hreg Hlib. eexists.
  rewrite (load_from_path_check_false host path hint check w data registered
             Hcheck Hfile Hreg).
  rewrite (AquesTalk_init_run host path (Some registered) _ _ _ Hlib).
  rewrite log_log. split; reflexivity.
Qed.

(** X4. [load] looks for the library at
    [os.path.join(dirname, name, "AquesTalk.dll")], the same place for a
    member and for its name.  With [check_voice_type] false or omitted,
    the session it returns carries the voice type the file there is
    registered under, not the one that was asked for. *)
Theorem load_default_flag_uses_fingerprint
    (v : VoiceType.t) (check : option bool) (w : World F)
    (data : list byte) (registered : VoiceType.t)
    (fn_synthe : Synthe_fn F) (fn_free : FreeWave_fn F) :
  default false check = false ->
  files w !! dll_path host v = Some data ->
  _DLL_MD5_DICT !! md5_hexdigest_of host data = Some registered ->
  windll_LoadLibrary host (dll_path host v)
    = Some {| export_Synthe := Some fn_synthe; export_FreeWave := Some fn_free |} ->
  exists session,
    load host (Member v) check w
    = (Returns session,
       log w [Ev_open (dll_path host v); Ev_LoadLibrary (dll_path host v)])
    /\ load host (Name (VoiceType.name v)) check w
       = load host (Member v) check w
    /\ voice_type session = Some registered.
Proof.
  intros Hcheck Hfile Hreg Hlib.
  assert (load host (Name (VoiceType.name v)) check w
          = load host (Member v) check w) as Hname.
  { unfold load, bind. rewrite VoiceType_getitem_name. reflexivity. }
  assert (load host (Member v) check w
          = load_from_path host (dll_path host v) v (Some (default false check)) w)
    as Hload by reflexivity.
  rewrite Hname, Hload.
  rewrite (load_from_path_check_false host (dll_path host v) v
             (Some (default false check)) w data registered Hcheck Hfile Hreg).
  rewrite (AquesTalk_init_run host _ (Some registered) _ _ _ Hlib).
  rewrite log_log. eexists. repeat split.
Qed.

(** X5. With [check_voice_type=True], [load_from_path] returns a session
    exactly when the library loads and has both exports.  Otherwise it
    raises: the loader's error when the library does not load, an
    [AttributeError] on [AquesTalk_Synthe] when that export is missing
    (looked up first), on [AquesTalk_FreeWave] when only that one is.  In
    every case the library was asked for once and no file was opened. *)
Theorem load_from_path_library_errors
    (path : string) (hint : VoiceType.t) (w : World F) :
  let run := load_from_path host path hint (Some true) w in
  snd run = log w [Ev_LoadLibrary path]
  /\ (windll_LoadLibrary host path = None ->
      fst run = Raises (OSError path))
  /\ (forall lib, windll_LoadLibrary host path = Some lib ->
        export_Synthe lib = None ->
        fst run = Raises (AttributeError "AquesTalk_Synthe"))
  /\ (forall lib fn_synthe, windll_LoadLibrary host path = Some lib ->
        export_Synthe lib = Some fn_synthe ->
        export_FreeWave lib = None ->
        fst run = Raises (AttributeError "AquesTalk_FreeWave"))
  /\ ((exists session, fst run = Returns session)
      <-> exists fn_synthe fn_free,
            windll_LoadLibrary host path
            = Some {| export_Synthe := Some fn_synthe;
                      export_FreeWave := Some fn_free |}).
Proof.
  intros run. subst run. rewrite load_from_path_check_true.
  split; [apply AquesTalk_init_world|].
  unfold AquesTalk_init, bind, emit.
  destruct (windll_LoadLibrary host path) as [[[fs|] [ff|]]|]; cbn;
    (split; [try done|]); (split; [intros lib [= <-]; try done|]);
    (split; [intros lib fn [= <-]; try done|]); split;
    try (intros [session Hs]; discriminate Hs);
    try (intros (fs' & ff' & Hl); discriminate Hl).
  - intros _. by exists fs, ff.
  - intros _. by eexists.
Qed.

(** The events of [load_from_path], branch by branch. *)
Lemma load_from_path_trace (path : string) (hint : VoiceType.t)
    (check : option bool) (w : World F) :
  trace (snd (load_from_path host path hint check w))
  = trace w ++
    (if default false check then [Ev_LoadLibrary path]
     else Ev_open path ::
          match files w !! path with
          | Some data =>
              match _DLL_MD5_DICT !! md5_hexdigest_of host data with
              | Some _ => [Ev_LoadLibrary path]
              | None => []
              end
          | None => []
          end).
Proof.
  unfold load_from_path. destruct (default false check); cbn [negb].
  - change (trace (snd (AquesTalk_init host path (Some hint) w))
            = trace w ++ [Ev_LoadLibrary path]).
    by rewrite AquesTalk_init_world.
  - unfold bind at 1. unfold bind at 1.
    destruct (files w !! path) as [data|] eqn:Hfile.
    2: { by rewrite (_get_md5_from_file_missing host path None w Hfile). }
    rewrite (_get_md5_from_file_run host path None w data Hfile) by done.
    unfold bind at 1, dict_getitem.
    destruct (_DLL_MD5_DICT !! md5_hexdigest_of host data) as [v|];
      [|reflexivity].
    unfold ret at 1.
    case_bool_decide; unfold ret; rewrite AquesTalk_init_world;
      cbn [log trace]; by rewrite <- app_assoc.
Qed.

(** X6. The loader makes no synthesis call and no release; what it does
    to the outside is exactly this.  [load_from_path] with
    [check_voice_type=True] asks for the library at the path and does
    nothing else.  With the flag false or omitted it opens the file at
    the path, and then asks for the library there exactly when the file
    exists and its digest is registered.  [load] does the same at the
    path it derives, and nothing at all when it is given a string that
    names no voice type. *)
Theorem loading_events_exact
    (path : string) (hint : VoiceType.t) (arg : voice_arg)
    (check : option bool) (w : World F) :
  let events (p : string) : list event :=
    if default false check then [Ev_LoadLibrary p]
    else Ev_open p ::
         match files w !! p with
         | Some data =>
             match _DLL_MD5_DICT !! md5_hexdigest_of host data with
             | Some _ => [Ev_LoadLibrary p]
             | None => []
             end
         | None => []
         end in
  trace (snd (load_from_path host path hint check w)) = trace w ++ events path
  /\ trace (snd (load host arg check w))
     = trace w ++
       match arg with
       | Member v => events (dll_path host v)
       | Name s =>
           match VoiceType.getitem s with
           | Some v => events (dll_path host v)
           | None => []
           end
       end.
Proof.
  intros events. split; [apply load_from_path_trace|].
  assert (forall v,
            trace (snd (load_from_path host (dll_path host v) v
                          (Some (default false check)) w))
            = trace w ++ events (dll_path host v)) as Hpath
    by (intros v; apply load_from_path_trace).
  unfold load, bind. destruct arg as [v|s]; [apply Hpath|].
  destruct (VoiceType.getitem s) as [v|]; [apply Hpath|].
  cbn. by rewrite app_nil_r.
Qed.

End Loader_more.

(* ===================================================================== *)
(** * Further properties of the synthesis methods                         *)
(* ===================================================================== *)

Lemma well_paired_app (a b : list event) :
  well_paired a = true -> well_paired b = true -> well_paired (a ++ b) = true.
Proof.
  intros Ha Hb. remember (length a) as n eqn:Hn.
  revert a Hn Ha. induction (lt_wf n) as [n _ IH]. intros a -> Ha.
  destruct a as [|ev a]; [exact Hb|].
  destruct ev as [name|name|koe speed|p]; cbn in Ha |- *;
    try (apply (IH (length a)); [cbn; lia | reflexivity | exact Ha]);
    try discriminate.
  destruct a as [|ev' a].
  - destruct b as [|[name|name|koe' speed'|p] b]; done.
  - destruct ev' as [name|name|koe' speed'|p].
    + change (well_paired ((Ev_open name :: a) ++ b) = true).
      apply (IH (S (length a))); [cbn; lia | reflexivity | exact Ha].
    + change (well_paired ((Ev_LoadLibrary name :: a) ++ b) = true).
      apply (IH (S (length a))); [cbn; lia | reflexivity | exact Ha].
    + change (well_paired ((Ev_Synthe koe' speed' :: a) ++ b) = true).
      apply (IH (S (length a))); [cbn; lia | reflexivity | exact Ha].
    + cbn in Ha |- *. apply andb_true_iff in Ha as [Hp Ha]. rewrite Hp. cbn.
      apply (IH (length a)); [cbn; lia | reflexivity | exact Ha].
Qed.

Section Synthesis_more.

Context {F : Type} (host : Host F).

(** The world after [synthe_raw]: untouched when the text has no
    encoding, else with the synthesis call in the trace, followed by the
    release when a buffer came back. *)
Lemma synthe_raw_world_cases (self : AquesTalk F) (koe : text)
    (speed : option Z) (w : World F) :
  snd (synthe_raw host self koe speed w) = w
  \/ (exists bs f',
        snd (synthe_raw host self koe speed w)
        = {| files := files w; foreign := f';
             trace := trace w ++ [Ev_Synthe bs (c_int (default 100 speed))] |})
  \/ (exists bs f' p, p <> 0 /\
        snd (synthe_raw host self koe speed w)
        = {| files := files w; foreign := f';
             trace := trace w ++ [Ev_Synthe bs (c_int (default 100 speed));
                                  Ev_FreeWave p] |}).
Proof.
  destruct (encode_sjis host koe) as [bs|] eqn:Henc.
  - destruct (AquesTalk_Synthe (_dll self) (foreign w) bs
                (c_int (default 100 speed))) as [[p n] f'] eqn:Hreply.
    destruct (Z.eq_dec p 0) as [->|Hnn].
    + right; left. exists bs, f'.
      by rewrite (synthe_raw_null_run host self koe speed w _ _ _ Henc Hreply).
    + right; right. eexists bs, _, p. split; [done|].
      by rewrite (synthe_raw_buffer_run host self koe speed w _ _ _ _
                    Henc Hreply Hnn).
  - left. by rewrite (synthe_raw_unencodable_run host self koe speed w Henc).
Qed.

(** [wave.open] reads bytes: [synthe] leaves the world as its call of
    [synthe_raw] left it. *)
Lemma synthe_world (self : AquesTalk F) (koe : text) (speed : option Z)
    (w : World F) :
  snd (synthe host self koe speed w) = snd (synthe_raw host self koe speed w).
Proof.
  unfold synthe, bind.
  replace (synthe_raw host self koe (Some (default 100 speed)))
    with (synthe_raw host self koe speed) by (by destruct speed).
  destruct (synthe_raw host self koe speed w) as [[raw|e] w']; [|done].
  by destruct (wave_open host raw).
Qed.

(** X7. What [synthe_raw] does to the outside is exactly this: nothing
    when the text cannot be encoded; otherwise one synthesis call, on the
    encoded text and the converted speed, followed by one release of the
    returned pointer exactly when that pointer is not null.  [synthe]
    does the same and nothing more.  So neither opens a file or loads a
    library, and neither releases anything but what the call returned. *)
Theorem synthesis_events_exact
    (self : AquesTalk F) (koe : text) (speed : option Z) (w : World F) :
  let s := c_int (default 100 speed) in
  let events :=
    match encode_sjis host koe with
    | None => []
    | Some koe_bytes =>
        let c_wav :=
          fst (fst (AquesTalk_Synthe (_dll self) (foreign w) koe_bytes s)) in
        Ev_Synthe koe_bytes s :: (if c_wav =? 0 then [] else [Ev_FreeWave c_wav])
    end in
  trace (snd (synthe_raw host self koe speed w)) = trace w ++ events
  /\ trace (snd (synthe host self koe speed w)) = trace w ++ events.
Proof.
  intros s events. rewrite synthe_world.
  assert (trace (snd (synthe_raw host self koe speed w)) = trace w ++ events)
    as Hraw; [|done].
  subst events s.
  destruct (encode_sjis host koe) as [bs|] eqn:Henc.
  - destruct (AquesTalk_Synthe (_dll self) (foreign w) bs
                (c_int (default 100 speed))) as [[p n] f'] eqn:Hreply.
    cbn [fst]. destruct (Z.eqb_spec p 0) as [->|Hnn].
    + by rewrite (synthe_raw_null_run host self koe speed w _ _ _ Henc Hreply).
    + by rewrite (synthe_raw_buffer_run host self koe speed w _ _ _ _
                    Henc Hreply Hnn).
  - rewrite (synthe_raw_unencodable_run host self koe speed w Henc).
    by rewrite app_nil_r.
Qed.

(** X8. When a buffer comes back, [synthe_raw] returns [size] bytes (none
    when [size] is not positive): those the foreign memory held at the
    addresses from the pointer on after the synthesis call, before the
    release, whatever the release then does to that memory. *)
Theorem synthe_raw_copies_before_release
    (self : AquesTalk F) (koe : text) (speed : option Z) (w : World F)
    (koe_bytes : list byte) (c_wav size : Z) (f' : F) :
  encode_sjis host koe = Some koe_bytes ->
  AquesTalk_Synthe (_dll self) (foreign w) koe_bytes (c_int (default 100 speed))
    = ((c_wav, size), f') ->
  c_wav <> 0 ->
  exists wav_raw,
    fst (synthe_raw host self koe speed w) = Returns wav_raw
    /\ length wav_raw = Z.to_nat size
    /\ (size <= 0 -> wav_raw = [])
    /\ (forall i, (i < Z.to_nat size)%nat ->
          wav_raw !! i = Some (peek host f' (c_wav + Z.of_nat i)))
    /\ foreign (snd (synthe_raw host self koe speed w))
       = AquesTalk_FreeWave (_dll self) f' c_wav.
Proof.
  intros Henc Hreply Hnn. eexists.
  rewrite (synthe_raw_buffer_run host self koe speed w _ _ _ _ Henc Hreply Hnn).
  cbn [fst snd foreign]. split; [reflexivity|].
  split; [by rewrite length_map, length_seq|].
  split; [|split; [|reflexivity]].
  - intros Hsize. replace (Z.to_nat size) with 0%nat by lia. reflexivity.
  - intros i Hi. rewrite list_lookup_fmap.
    rewrite lookup_seq_lt by done. reflexivity.
Qed.

(** X9. When the bytes of a returned buffer are no WAV container, [synthe]
    raises the error of [wave.open], and the buffer has been released all
    the same: the release is in the trace, after the synthesis call. *)
Theorem synthe_parse_failure_after_release
    (self : AquesTalk F) (koe : text) (speed : option Z) (w : World F)
    (koe_bytes : list byte) (c_wav size : Z) (f' : F) (failure : wave_failure) :
  encode_sjis host koe = Some koe_bytes ->
  AquesTalk_Synthe (_dll self) (foreign w) koe_bytes (c_int (default 100 speed))
    = ((c_wav, size), f') ->
  c_wav <> 0 ->
  wave_open host (map (fun i => peek host f' (c_wav + Z.of_nat i))
                      (seq 0 (Z.to_nat size))) = inr failure ->
  synthe host self koe speed w
  = (Raises (Exc_wave failure),
     {| files := files w;
        foreign := AquesTalk_FreeWave (_dll self) f' c_wav;
        trace := trace w ++ [Ev_Synthe koe_bytes (c_int (default 100 speed));
                             Ev_FreeWave c_wav] |}).
Proof.
  intros Henc Hreply Hnn Hwave. unfold synthe, bind.
  rewrite (synthe_raw_buffer_run host self koe (Some (default 100 speed)) w
             _ _ _ _ Henc Hreply Hnn).
  by rewrite Hwave.
Qed.

(** X10. Every operation of the module keeps the trace well paired: if
    so far every release came right after a synthesis call and none was
    given the null pointer, that is still so after [synthe_raw], [synthe],
    [load_from_path] or [load], however they end. *)
Theorem operations_keep_trace_well_paired
    (self : AquesTalk F) (koe : text) (speed : option Z)
    (path : string) (hint : VoiceType.t) (arg : voice_arg)
    (check : option bool) (w : World F) :
  well_paired (trace w) = true ->
  well_paired (trace (snd (synthe_raw host self koe speed w))) = true
  /\ well_paired (trace (snd (synthe host self koe speed w))) = true
  /\ well_paired (trace (snd (load_from_path host path hint check w))) = true
  /\ well_paired (trace (snd (load host arg check w))) = true.
Proof.
  intros Hw.
  assert (well_paired (trace (snd (synthe_raw host self koe speed w))) = true)
    as Hraw.
  { destruct (synthe_raw_world_cases self koe speed w)
      as [-> | [(bs & f' & ->) | (bs & f' & p & Hp & ->)]]; [done| |];
      cbn [trace]; apply well_paired_app; try done.
    cbn. apply Z.eqb_neq in Hp. by rewrite Hp. }
  assert (forall p h c,
            well_paired (trace (snd (load_from_path host p h c w))) = true)
    as Hpath.
  { intros p h c. pose proof (load_from_path_world host p h c w) as Hin.
    repeat (apply elem_of_cons in Hin as [->|Hin]); [| | |by inversion Hin];
      cbn [log trace]; by apply well_paired_app. }
  split; [done|]. split; [by rewrite synthe_world|]. split; [apply Hpath|].
  unfold load, bind. destruct arg as [v|s]; [apply Hpath|].
  destruct (VoiceType.getitem s); [apply Hpath | done].
Qed.

End Synthesis_more.

(* ===================================================================== *)
(** * Further properties of the tables                                    *)
(* ===================================================================== *)

(** X11. The message of an [AquesTalkError] is the table's entry for its
    code, the generic one when there is none.  The codes with an entry
    are 100 to 111 and 200 to 204: for these the message is never the
    generic one, for every other integer it is. *)
Theorem AquesTalkError_known_codes (code : Z) :
  let known := 100 <= code <= 111 \/ 200 <= code <= 204 in
  (is_Some (messages !! code) <-> known)
  /\ message (AquesTalkError_init code)
     = default "不明なエラー" (messages !! code)
  /\ (message (AquesTalkError_init code) = "不明なエラー" <-> ~ known)
  /\ err (AquesTalkError_init code) = code.
Proof.
  intros known. subst known.
  assert (is_Some (messages !! code)
          <-> 100 <= code <= 111 \/ 200 <= code <= 204) as Hdom.
  { split.
    - intros [m Hm]. unfold messages in Hm.
      apply elem_of_list_to_map_2 in Hm.
      repeat (apply elem_of_cons in Hm as [Hm|Hm];
              [injection Hm as -> _; lia|]).
      by inversion Hm.
    - intros Hknown.
      assert (code = 100 \/ code = 101 \/ code = 102 \/ code = 103
              \/ code = 104 \/ code = 105 \/ code = 106 \/ code = 107
              \/ code = 108 \/ code = 109 \/ code = 110 \/ code = 111
              \/ code = 200 \/ code = 201 \/ code = 202 \/ code = 203
              \/ code = 204) as Hcode by lia.
      repeat (destruct Hcode as [->|Hcode]); try subst code;
        vm_compute; eauto. }
  split; [exact Hdom|].
  split; [unfold AquesTalkError_init; cbn [message];
          by destruct (messages !! code)|].
  split; [|reflexivity].
  unfold AquesTalkError_init; cbn [message].
  destruct (messages !! code) as [m|] eqn:Hm.
  - assert (100 <= code <= 111 \/ 200 <= code <= 204) as Hknown
      by (apply Hdom; eauto).
    split; [|tauto]. intros ->. exfalso.
    unfold messages in Hm. apply elem_of_list_to_map_2 in Hm.
    repeat (apply elem_of_cons in Hm as [Hm|Hm]; [discriminate Hm|]).
    by inversion Hm.
  - split; [|done]. intros _ Hknown. apply Hdom in Hknown as [m Hm'].
    congruence.
Qed.

(** X12. [VoiceType[name]] and [member.name] are inverse to each other:
    the look-up of a member's name gives the member back, a look-up that
    succeeds returns a member of exactly that name, it succeeds on the
    eight names of [VOICE_TYPES] and on nothing else, and no two members
    share a name. *)
Theorem VoiceType_name_round_trip :
  (forall v, VoiceType.getitem (VoiceType.name v) = Some v)
  /\ (forall s v, VoiceType.getitem s = Some v -> VoiceType.name v = s)
  /\ (forall s, is_Some (VoiceType.getitem s) <-> s ∈ VOICE_TYPES)
  /\ (forall v1 v2, VoiceType.name v1 = VoiceType.name v2 -> v1 = v2).
Proof.
  assert (forall s v, VoiceType.getitem s = Some v -> VoiceType.name v = s)
    as Hname.
  { intros s v Hget. unfold VoiceType.getitem in Hget.
    apply find_some in Hget as [_ Heq]. by apply String.eqb_eq. }
  split; [apply VoiceType_getitem_name|]. split; [exact Hname|]. split.
  - intros s. split.
    + intros [v Hget]. apply Hname in Hget as <-.
      rewrite <- VoiceType_names. apply list_elem_of_fmap_2.
      apply (bool_decide_unpack _). by destruct v.
    + intros Hs. destruct (VoiceType.getitem s) as [v|] eqn:Hget; [eauto|].
      exfalso. unfold VOICE_TYPES in Hs.
      repeat (apply elem_of_cons in Hs as [->|Hs]; [discriminate Hget|]).
      by inversion Hs.
  - intros v1 v2 Heq.
    pose proof (VoiceType_getitem_name v1) as H1.
    rewrite Heq, VoiceType_getitem_name in H1. congruence.
Qed.

(** X13. Every voice type has a fingerprint in [_DLL_MD5_DICT], so each
    of the eight can be the result of the look-up; and every key has the
    32 characters of an MD5 hex digest. *)
Theorem every_voice_type_is_registered :
  (forall v, exists md5, _DLL_MD5_DICT !! md5 = Some v)
  /\ (forall md5 v, _DLL_MD5_DICT !! md5 = Some v ->
        String.length md5 = 32%nat).
Proof.
  split.
  - intros v. destruct v.
    + by exists "d09ba89e04fc6a848377cb695b7c227a".
    + by exists "8bfacc9e1c9d6f1a1f6803739a9ed7d6".
    + by exists "950cb2c4a9493ff3af7906fdb02b523b".
    + by exists "d4491b6ff6aab7e6f3a19dad369d0432".
    + by exists "1a69c64175f46271f9f491890b265762".
    + by exists "cd431c8c86c1566e73cbbb166047b8a9".
    + by exists "54f15b467cbf215884d29a0ad39a9df3".
    + by exists "e352165e9da54e255c3c25a33cb85aaa".
  - intros md5 v Hget. unfold _DLL_MD5_DICT in Hget.
    apply elem_of_list_to_map_2 in Hget.
    repeat (apply elem_of_cons in Hget as [Hget|Hget];
            [injection Hget as -> _; reflexivity|]).
    by inversion Hget.
Qed.

(* ===================================================================== *)
(** * What a returned session is                                          *)
(* ===================================================================== *)


(* ===================================================================== *)
(** * The further properties at concrete inputs                           *)
(* ===================================================================== *)

Lemma load_from_path_missing_file_raises_witness :
  load_from_path demo_host "C:\nothing.dll" VoiceType.f1 None demo_world
  = (Raises (OSError "C:\nothing.dll"),
     log demo_world [Ev_open "C:\nothing.dll"]).
Proof.
  apply (load_from_path_missing_file_raises demo_host "C:\nothing.dll"
           VoiceType.f1 None demo_world).
  - reflexivity.
  - vm_compute. reflexivity.
Defined.


Lemma load_from_path_default_flag_uses_fingerprint_witness :
  exists session,
    load_from_path demo_host f1_path VoiceType.f2 None demo_world
    = (Returns session, log demo_world [Ev_open f1_path; Ev_LoadLibrary f1_path])
    /\ voice_type session = Some VoiceType.f1.
Proof.
  apply (load_from_path_default_flag_uses_fingerprint demo_host f1_path
           VoiceType.f2 None demo_world f1_image VoiceType.f1
           demo_Synthe demo_FreeWave).
  - reflexivity.
  - vm_compute. reflexivity.
  - vm_compute. reflexivity.
  - reflexivity.
Defined.

(** The [f2] directory holds the [f1] library: [load] asked for [f2]
    returns a session of voice type [f1]. *)
Lemma load_default_flag_uses_fingerprint_witness :
  exists session,
    load scrub_host (Member VoiceType.f2) None swapped_world
    = (Returns session,
       log swapped_world [Ev_open f2_path; Ev_LoadLibrary f2_path])
    /\ load scrub_host (Name "f2") None swapped_world
       = load scrub_host (Member VoiceType.f2) None swapped_world
    /\ voice_type session = Some VoiceType.f1.
Proof.
  apply (load_default_flag_uses_fingerprint scrub_host VoiceType.f2 None
           swapped_world f1_image VoiceType.f1 scrub_Synthe scrub_FreeWave).
  - reflexivity.
  - vm_compute. reflexivity.
  - vm_compute. reflexivity.
  - reflexivity.
Defined.

(** A library without [AquesTalk_Synthe]. *)
Lemma load_from_path_library_errors_witness :
  fst (load_from_path scrub_host stray_path VoiceType.f1 (Some true)
         swapped_world)
  = Raises (AttributeError "AquesTalk_Synthe").
Proof.
  exact (proj1 (proj2 (proj2 (load_from_path_library_errors scrub_host
                                stray_path VoiceType.f1 swapped_world)))
           _ eq_refl eq_refl).
Defined.

(** The engine wipes the buffer on release; the two bytes were copied
    before. *)
Lemma synthe_raw_copies_before_release_witness :
  exists wav_raw,
    fst (synthe_raw scrub_host scrub_session [107; 111]%N None swapped_world)
    = Returns wav_raw
    /\ length wav_raw = 2%nat
    /\ wav_raw !! 0%nat = Some "R"%byte
    /\ wav_raw !! 1%nat = Some "I"%byte
    /\ scrub_peek (foreign (snd (synthe_raw scrub_host scrub_session
                                   [107; 111]%N None swapped_world))) 8192
       = Byte.x00.
Proof.
  destruct (synthe_raw_copies_before_release scrub_host scrub_session
              [107; 111]%N None swapped_world (b_ "ko") 8192 2 true
              eq_refl eq_refl ltac:(discriminate))
    as (wav_raw & Hret & Hlen & _ & Hbytes & Hfree).
  exists wav_raw. split; [exact Hret|]. split; [exact Hlen|].
  split; [exact (Hbytes 0%nat ltac:(cbn; lia))|].
  split; [exact (Hbytes 1%nat ltac:(cbn; lia))|].
  rewrite Hfree. reflexivity.
Defined.

(** Two bytes are no WAV file: [synthe] raises, the buffer is released. *)
Lemma synthe_parse_failure_after_release_witness :
  synthe scrub_host scrub_session [107; 111]%N None swapped_world
  = (Raises (Exc_wave (wave_Error "file does not start with RIFF id")),
     {| files := files swapped_world; foreign := false;
        trace := [Ev_Synthe (b_ "ko") 100; Ev_FreeWave 8192] |}).
Proof.
  exact (synthe_parse_failure_after_release scrub_host scrub_session
           [107; 111]%N None swapped_world (b_ "ko") 8192 2 true
           (wave_Error "file does not start with RIFF id")
           eq_refl eq_refl ltac:(discriminate) eq_refl).
Defined.

Lemma operations_keep_trace_well_paired_witness :
  well_paired (trace (snd (synthe_raw demo_host demo_session [107; 111]%N
                             None demo_world))) = true
  /\ well_paired (trace (snd (load demo_host (Name "f1") None demo_world)))
     = true.
Proof.
  destruct (operations_keep_trace_well_paired demo_host demo_session
              [107; 111]%N None f1_path VoiceType.f1 (Name "f1") None
              demo_world eq_refl) as (Hraw & _ & _ & Hload).
  split; [exact Hraw | exact Hload].
Defined.

